(* Shallow embedding of src/src/javanese-calendar.ts: conversion of a
   Gregorian instant into a Javanese (Sultan Agung) date, with the pasaran
   and wuku cycles.

   Conventions of the embedding:
   - a JS [Date] is its time value, an integer number of milliseconds since
     1970-01-01T00:00:00Z, modelled as [Z];
   - JS numbers in this file are always integers, so [Math.floor (a / b)]
     is [Z.div] (floor division), [Math.ceil (a / b)] is [ceilDiv], and the
     JS remainder operator [%] (sign of the dividend) is [Z.rem];
   - an array read [A[i]] yields [Some] the element, or [None] for the JS
     value [undefined] when [i] is out of range;
   - the two [while] loops of [toJavanese] are run with explicit fuel; the
     lemmas [yearLoop_exits] and [monthLoop_exits] show the fuel given by
     [toJavanese] is never the reason a loop stops. *)

From Stdlib Require Import ZArith List String Bool Lia.
Import ListNotations.
Open Scope Z_scope.

(** * Constants and name tables *)

Definition msPerDay : Z := 86400000.

(** [new Date('1867-03-04T17:00:00.000Z').getTime()]. *)
Definition epochMs : Z := -3244950000000.

Definition DINTEN : list string :=
  ["Ahad"; "Senin"; "Selasa"; "Rabu"; "Kamis"; "Jumat"; "Sabtu"]%string.

Definition PASARAN : list string :=
  ["Kliwon"; "Legi"; "Pahing"; "Pon"; "Wage"]%string.

Definition SASIH : list string :=
  ["Sura"; "Sapar"; "Mulud"; "Bakda Mulud"; "Jumadilawal"; "Jumadilakir";
   "Rejeb"; "Ruwah"; "Pasa"; "Sawal"; "Dulkangidah"; "Besar"]%string.

Definition WULAN : list string :=
  ["Sura"; "Sapar"; "Mulud"; "Bakda Mulud"; "Jumadil Awal"; "Jumadil Akhir";
   "Rejeb"; "Ruwah"; "Pasa"; "Sawal"; "Sela"; "Besar"]%string.

Definition WUKU : list string :=
  ["Sinta"; "Landep"; "Wukir"; "Kurantil"; "Tolu"; "Gumbreg";
   "Warigalit"; "Warigagung"; "Julungwangi"; "Sungsang"; "Galungan";
   "Kuningan"; "Langkir"; "Mandasiya"; "Julungpujut"; "Pahang";
   "Kuruwelut"; "Marakeh"; "Tambir"; "Medangkungan"; "Maktal";
   "Wuye"; "Manahil"; "Prangbakat"; "Bala"; "Wugu"; "Wayang";
   "Kulawu"; "Dukut"; "Watugunung"]%string.

(** JS array read [A[i]] at an integer index: [None] is [undefined]. *)
Definition jsIndex (A : list string) (i : Z) : option string :=
  if i <? 0 then None else nth_error A (Z.to_nat i).

(** [Math.ceil (a / b)] for integers [a] and [b > 0]. *)
Definition ceilDiv (a b : Z) : Z := - ((- a) / b).

(** * Month and year lengths *)

(** The cycle number of [isJavaneseLeapYear]. *)
Definition leapCycle (year : Z) : Z := ceilDiv (year - 1) 8.

(** The value [yearInCycle] of [isJavaneseLeapYear]. *)
Definition yearInCycle (year : Z) : Z := year - (leapCycle year - 1) * 8.

Definition isJavaneseLeapYear (year : Z) : bool :=
  existsb (Z.eqb (yearInCycle year)) [2; 5; 8].

Definition getDaysInJavaneseMonth (year month : Z) : Z :=
  if (month =? 12) && isJavaneseLeapYear year then 30
  else if Z.rem month 2 =? 1 then 30 else 29.

Definition getTotalDaysInJavaneseYear (year : Z) : Z :=
  if isJavaneseLeapYear year then 355 else 354.

(** * The conversion *)

(** [while (julianDay >= daysInYear) { julianDay -= daysInYear; year += 1;
    daysInYear = getTotalDaysInJavaneseYear(year); }]; returns the final
    [(julianDay, year)]. *)
Fixpoint yearLoop (fuel : nat) (julianDay year : Z) : Z * Z :=
  match fuel with
  | O => (julianDay, year)
  | S fuel' =>
      let daysInYear := getTotalDaysInJavaneseYear year in
      if julianDay >=? daysInYear
      then yearLoop fuel' (julianDay - daysInYear) (year + 1)
      else (julianDay, year)
  end.

(** [while (julianDay >= daysInMonth) { julianDay -= daysInMonth; month += 1;
    daysInMonth = getDaysInJavaneseMonth(year, month); }]; returns the final
    [(julianDay, month)]. *)
Fixpoint monthLoop (fuel : nat) (year julianDay month : Z) : Z * Z :=
  match fuel with
  | O => (julianDay, month)
  | S fuel' =>
      let daysInMonth := getDaysInJavaneseMonth year month in
      if julianDay >=? daysInMonth
      then monthLoop fuel' year (julianDay - daysInMonth) (month + 1)
      else (julianDay, month)
  end.

(** Fuel for both loops: every iteration lowers [julianDay] by at least 29,
    so [julianDay + 1] iterations are always enough. *)
Definition loopFuel (julianDay : Z) : nat := S (Z.to_nat julianDay).

(** The initial [julianDay] of [toJavanese]: whole days since the epoch. *)
Definition elapsedDays (t : Z) : Z := (t - epochMs) / msPerDay.

Module Cycle.
(** The [pasaran] and [wuku] sub-objects [{ day, name }]. *)
Record t := mk { day : Z; name : option string }.
End Cycle.

Record JavaneseDate := mkJavaneseDate {
  year : Z;
  month : Z;
  day : Z;
  monthName : option string;
  dayName : option string;
  pasaran : Cycle.t;
  wuku : Cycle.t
}.

Section Convert.

(** The host's time-zone: milliseconds added to a UTC time value to get
    the local wall-clock time at that instant (the negated
    [getTimezoneOffset()] in milliseconds). *)
Variable localOffset : Z -> Z.

(** [date.getDay()]: local day of the week, 0 = Sunday; 1970-01-01 was a
    Thursday. *)
Definition getDay (t : Z) : Z := ((t + localOffset t) / msPerDay + 4) mod 7.

Definition toJavanese (t : Z) : JavaneseDate :=
  let julianDay0 := elapsedDays t in
  let '(julianDay1, year) := yearLoop (loopFuel julianDay0) julianDay0 1795 in
  let '(julianDay, month) := monthLoop (loopFuel julianDay1) year julianDay1 1 in
  let day := julianDay + 1 in
  let dayOfWeek := getDay t in
  let pasaranDay := Z.rem (dayOfWeek + 1) 5 in
  let wukuDay := Z.rem ((julianDay + 1) / 7) 30 in
  {| year := year;
     month := month;
     day := day;
     monthName := jsIndex WULAN (month - 1);
     dayName := jsIndex DINTEN dayOfWeek;
     pasaran := Cycle.mk pasaranDay (jsIndex PASARAN pasaranDay);
     wuku := Cycle.mk wukuDay (jsIndex WUKU wukuDay) |}.

End Convert.

(** A host running in UTC. *)
Definition utc (_ : Z) : Z := 0.

(** Sum of the lengths of [n] consecutive months starting at [month]. *)
Fixpoint sumMonths (year month : Z) (n : nat) : Z :=
  match n with
  | O => 0
  | S n' => getDaysInJavaneseMonth year month + sumMonths year (month + 1) n'
  end.

(** Position of a year within its 8-year cycle, cycle 1 being years 1..8. *)
Definition cyclePosition (year : Z) : Z := (year - 1) mod 8 + 1.

(** Number of leap years among [n] consecutive years starting at [year]. *)
Fixpoint countLeap (year : Z) (n : nat) : nat :=
  match n with
  | O => O
  | S n' => (if isJavaneseLeapYear year then 1 else 0) + countLeap (year + 1) n'
  end%nat.

(** Total length of [n] consecutive years starting at [year]. *)
Fixpoint yearsSpan (year : Z) (n : nat) : Z :=
  match n with
  | O => 0
  | S n' => getTotalDaysInJavaneseYear year + yearsSpan (year + 1) n'
  end.

(** The invariants of a result: month and day in range, cycle indices in
    range, and every name read from inside its table. *)
Definition tableEntry (A : list string) (i : Z) (v : option string) : Prop :=
  0 <= i /\ exists s, nth_error A (Z.to_nat i) = Some s /\ v = Some s.

Definition wellFormed (lo : Z -> Z) (t : Z) : Prop :=
  let r := toJavanese lo t in
  1 <= month r <= 12 /\
  1 <= day r <= getDaysInJavaneseMonth (year r) (month r) /\
  0 <= Cycle.day (pasaran r) <= 4 /\
  0 <= Cycle.day (wuku r) <= 29 /\
  tableEntry WULAN (month r - 1) (monthName r) /\
  tableEntry DINTEN (getDay lo t) (dayName r) /\
  tableEntry PASARAN (Cycle.day (pasaran r)) (Cycle.name (pasaran r)) /\
  tableEntry WUKU (Cycle.day (wuku r)) (Cycle.name (wuku r)).

(** The local calendar day number of [t] (days since 1970-01-01 in host
    local time), the day count [date.getDay()] is taken from. *)
Definition localDayNumber (lo : Z -> Z) (t : Z) : Z := (t + lo t) / msPerDay.

(** * The public entry point (src/src/index.ts) *)

(** [generateJavaneseTimestamp(date)] returns [toJavanese(date)]. *)
Definition generateJavaneseTimestamp (lo : Z -> Z) (t : Z) : JavaneseDate :=
  toJavanese lo t.

(** * Day ordinals *)

(** Days from the epoch anchor to day [d] of month [m] of year [y]: the
    whole years from 1795, then the whole months of [y], then [d - 1]. *)
Definition javaneseOrdinal (y m d : Z) : Z :=
  yearsSpan 1795 (Z.to_nat (y - 1795)) + sumMonths y 1 (Z.to_nat (m - 1)) + (d - 1).

(** The Javanese date following day [d] of month [m] of year [y]. *)
Definition nextDate (y m d : Z) : Z * Z * Z :=
  if d <? getDaysInJavaneseMonth y m then (y, m, d + 1)
  else if m <? 12 then (y, m + 1, 1)
  else (y + 1, 1, 1).

(** * Sample evaluations *)

Example epoch_is_day_zero : elapsedDays epochMs = 0.
Proof. reflexivity. Qed.

Example tuesday_2024_01_02 : getDay utc 1704153600000 = 2.
Proof. reflexivity. Qed.

Example toJavanese_2024 :
  let r := toJavanese utc 1704153600000 in (year r, month r, day r) = (1956, 8, 21).
Proof. vm_compute. reflexivity. Qed.

(** * Leap-year rule *)

Lemma ceilDiv_8 (a : Z) :
  ceilDiv a 8 = if a mod 8 =? 0 then a / 8 else a / 8 + 1.
Proof.
  unfold ceilDiv.
  destruct (Z.eqb_spec (a mod 8) 0) as [H|H];
    Z.div_mod_to_equations; lia.
Qed.

Lemma yearInCycle_eq (y : Z) :
  yearInCycle y = if (y - 1) mod 8 =? 0 then 9 else (y - 1) mod 8 + 1.
Proof.
  unfold yearInCycle, leapCycle. rewrite ceilDiv_8.
  destruct (Z.eqb_spec ((y - 1) mod 8) 0) as [H|H];
    Z.div_mod_to_equations; lia.
Qed.

Lemma isJavaneseLeapYear_mod (y : Z) :
  isJavaneseLeapYear y = existsb (Z.eqb ((y - 1) mod 8)) [1; 4; 7].
Proof.
  unfold isJavaneseLeapYear. rewrite yearInCycle_eq.
  pose proof (Z.mod_pos_bound (y - 1) 8 ltac:(lia)) as B.
  destruct (Z.eqb_spec ((y - 1) mod 8) 0) as [H|H].
  - rewrite H. reflexivity.
  - assert (R : (y - 1) mod 8 = 1 \/ (y - 1) mod 8 = 2 \/ (y - 1) mod 8 = 3 \/
                (y - 1) mod 8 = 4 \/ (y - 1) mod 8 = 5 \/ (y - 1) mod 8 = 6 \/
                (y - 1) mod 8 = 7) by lia.
    destruct R as [R|[R|[R|[R|[R|[R|R]]]]]]; rewrite R; reflexivity.
Qed.

Lemma isJavaneseLeapYear_plus8 (y : Z) :
  isJavaneseLeapYear (y + 8) = isJavaneseLeapYear y.
Proof.
  rewrite !isJavaneseLeapYear_mod.
  replace (y + 8 - 1) with (y - 1 + 1 * 8) by lia.
  rewrite Z_mod_plus_full. reflexivity.
Qed.

Lemma countLeap_shift (y : Z) :
  countLeap (y + 1) 8 = countLeap y 8.
Proof.
  cbn [countLeap].
  replace (y + 1 + 1 + 1 + 1 + 1 + 1 + 1 + 1) with (y + 8) by lia.
  rewrite isJavaneseLeapYear_plus8.
  replace (y + 1 + 1) with (y + 2) by lia.
  replace (y + 2 + 1) with (y + 3) by lia.
  replace (y + 3 + 1) with (y + 4) by lia.
  replace (y + 4 + 1) with (y + 5) by lia.
  replace (y + 5 + 1) with (y + 6) by lia.
  replace (y + 6 + 1) with (y + 7) by lia.
  destruct (isJavaneseLeapYear y), (isJavaneseLeapYear (y + 1)),
    (isJavaneseLeapYear (y + 2)), (isJavaneseLeapYear (y + 3)),
    (isJavaneseLeapYear (y + 4)), (isJavaneseLeapYear (y + 5)),
    (isJavaneseLeapYear (y + 6)), (isJavaneseLeapYear (y + 7)); reflexivity.
Qed.

Lemma countLeap_8 (n : nat) : countLeap (1 + Z.of_nat n) 8 = 3%nat.
Proof.
  induction n as [|n IH].
  - reflexivity.
  - replace (1 + Z.of_nat (S n)) with ((1 + Z.of_nat n) + 1) by lia.
    rewrite countLeap_shift. exact IH.
Qed.

Lemma existsb_eqb_In (x : Z) (l : list Z) :
  existsb (Z.eqb x) l = true <-> In x l.
Proof.
  rewrite existsb_exists. split.
  - intros [z [Hin Heq]]. apply Z.eqb_eq in Heq. subst. exact Hin.
  - intros Hin. exists x. split; [exact Hin | apply Z.eqb_refl].
Qed.

(** * Month and year lengths *)

Lemma getDaysInJavaneseMonth_bounds (y m : Z) :
  29 <= getDaysInJavaneseMonth y m <= 30.
Proof.
  unfold getDaysInJavaneseMonth.
  destruct (_ && _); [lia|]. destruct (_ =? 1); lia.
Qed.

Lemma getTotalDaysInJavaneseYear_bounds (y : Z) :
  354 <= getTotalDaysInJavaneseYear y <= 355.
Proof. unfold getTotalDaysInJavaneseYear. destruct (isJavaneseLeapYear y); lia. Qed.

(** * The year loop *)

Lemma yearsSpan_S_r (y : Z) (n : nat) :
  yearsSpan y (S n) = yearsSpan y n + getTotalDaysInJavaneseYear (y + Z.of_nat n).
Proof.
  revert y. induction n as [|n IH]; intros y.
  - cbn. replace (y + 0) with y by lia. lia.
  - change (yearsSpan y (S (S n)))
      with (getTotalDaysInJavaneseYear y + yearsSpan (y + 1) (S n)).
    rewrite IH. cbn [yearsSpan].
    replace (y + 1 + Z.of_nat n) with (y + Z.of_nat (S n)) by lia. lia.
Qed.

Lemma yearsSpan_mono (y : Z) (n m : nat) :
  (n <= m)%nat -> yearsSpan y n <= yearsSpan y m.
Proof.
  induction 1 as [|m _ IH]; [lia|].
  rewrite yearsSpan_S_r.
  pose proof (getTotalDaysInJavaneseYear_bounds (y + Z.of_nat m)). lia.
Qed.

(** With enough fuel, the year loop stops exactly when the remaining days
    fit in the current year, having skipped [n] whole years. *)
Lemma yearLoop_exits (fuel : nat) (jd y : Z) :
  0 <= jd -> (Z.to_nat jd < fuel)%nat ->
  exists n : nat,
    yearLoop fuel jd y = (jd - yearsSpan y n, y + Z.of_nat n) /\
    0 <= jd - yearsSpan y n < getTotalDaysInJavaneseYear (y + Z.of_nat n).
Proof.
  revert jd y. induction fuel as [|fuel IH]; intros jd y Hjd Hf; [lia|].
  cbn [yearLoop].
  pose proof (getTotalDaysInJavaneseYear_bounds y) as B.
  destruct (Z.geb_spec jd (getTotalDaysInJavaneseYear y)) as [Hge|Hlt].
  - destruct (IH (jd - getTotalDaysInJavaneseYear y) (y + 1)) as [n [E R]];
      [lia | lia |].
    exists (S n). cbn [yearsSpan].
    replace (y + Z.of_nat (S n)) with (y + 1 + Z.of_nat n) by lia.
    rewrite E. split; [f_equal; lia | lia].
  - exists O. cbn [yearsSpan]. replace (y + Z.of_nat 0) with y by lia.
    split; [f_equal; lia | lia].
Qed.

(** * The month loop *)

(** With enough fuel, and fewer remaining days than the months
    [month..12] hold, the month loop stops at a month of the year in which
    the remaining days fit. *)
Lemma monthLoop_exits (fuel : nat) (y jd m : Z) :
  1 <= m <= 12 ->
  0 <= jd < sumMonths y m (Z.to_nat (13 - m)) ->
  (Z.to_nat jd < fuel)%nat ->
  let '(r, m') := monthLoop fuel y jd m in
  m <= m' <= 12 /\ 0 <= r < getDaysInJavaneseMonth y m'.
Proof.
  revert jd m. induction fuel as [|fuel IH]; intros jd m Hm Hjd Hf; [lia|].
  cbn [monthLoop].
  assert (E : Z.to_nat (13 - m) = S (Z.to_nat (13 - (m + 1)))) by lia.
  rewrite E in Hjd. cbn [sumMonths] in Hjd.
  pose proof (getDaysInJavaneseMonth_bounds y m) as B.
  destruct (Z.geb_spec jd (getDaysInJavaneseMonth y m)) as [Hge|Hlt].
  - assert (Hm12 : m <> 12).
    { intros ->. cbn in Hjd. lia. }
    specialize (IH (jd - getDaysInJavaneseMonth y m) (m + 1)
                  ltac:(lia) ltac:(lia) ltac:(lia)).
    destruct (monthLoop fuel y (jd - getDaysInJavaneseMonth y m) (m + 1)).
    lia.
  - lia.
Qed.

Lemma sumMonths_year (y : Z) :
  sumMonths y 1 12 = if isJavaneseLeapYear y then 355 else 354.
Proof.
  cbn [sumMonths Z.add]. unfold getDaysInJavaneseMonth.
  destruct (isJavaneseLeapYear y); reflexivity.
Qed.

(** Fuel-independent shape of the loops: they only subtract whole years
    (resp. months) and advance the counter accordingly. *)
Lemma yearLoop_shape (fuel : nat) (jd y : Z) :
  exists n : nat, yearLoop fuel jd y = (jd - yearsSpan y n, y + Z.of_nat n).
Proof.
  revert jd y. induction fuel as [|fuel IH]; intros jd y.
  - exists O. cbn. f_equal; lia.
  - cbn [yearLoop]. destruct (jd >=? getTotalDaysInJavaneseYear y).
    + destruct (IH (jd - getTotalDaysInJavaneseYear y) (y + 1)) as [n E].
      exists (S n). rewrite E. cbn [yearsSpan]. f_equal; lia.
    + exists O. cbn. f_equal; lia.
Qed.

Lemma monthLoop_shape (fuel : nat) (y jd m : Z) :
  exists k : nat, monthLoop fuel y jd m = (jd - sumMonths y m k, m + Z.of_nat k).
Proof.
  revert jd m. induction fuel as [|fuel IH]; intros jd m.
  - exists O. cbn. f_equal; lia.
  - cbn [monthLoop]. destruct (jd >=? getDaysInJavaneseMonth y m).
    + destruct (IH (jd - getDaysInJavaneseMonth y m) (m + 1)) as [k E].
      exists (S k). rewrite E. cbn [sumMonths]. f_equal; lia.
    + exists O. cbn. f_equal; lia.
Qed.

Lemma jsIndex_in_range (A : list string) (i : Z) :
  0 <= i < Z.of_nat (List.length A) ->
  exists s, nth_error A (Z.to_nat i) = Some s /\ jsIndex A i = Some s.
Proof.
  intros Hi.
  destruct (nth_error A (Z.to_nat i)) as [s|] eqn:E.
  - exists s. split; [reflexivity|]. unfold jsIndex.
    destruct (Z.ltb_spec i 0); [lia | exact E].
  - apply nth_error_None in E. lia.
Qed.

Lemma getDay_bounds (lo : Z -> Z) (t : Z) : 0 <= getDay lo t < 7.
Proof. unfold getDay. apply Z.mod_pos_bound. lia. Qed.

Lemma pasaran_toJavanese (lo : Z -> Z) (t : Z) :
  pasaran (toJavanese lo t) =
  Cycle.mk (Z.rem (getDay lo t + 1) 5) (jsIndex PASARAN (Z.rem (getDay lo t + 1) 5)).
Proof.
  unfold toJavanese.
  destruct (yearLoop _ _ _) as [jd1 y].
  destruct (monthLoop _ _ _ _) as [jd m].
  reflexivity.
Qed.

Lemma tableEntry_jsIndex (A : list string) (i : Z) :
  0 <= i < Z.of_nat (List.length A) -> tableEntry A i (jsIndex A i).
Proof.
  intros Hi. destruct (jsIndex_in_range A i Hi) as [s [E1 E2]].
  split; [lia|]. exists s. split; assumption.
Qed.

(** * Claims *)

(** C1: the instant exactly at the epoch anchor 1867-03-04T17:00:00.000Z
    converts to year 1795, month 1, day 1, whatever the host time-zone. *)
Theorem toJavanese_epoch (lo : Z -> Z) :
  year (toJavanese lo epochMs) = 1795 /\
  month (toJavanese lo epochMs) = 1 /\
  day (toJavanese lo epochMs) = 1.
Proof. split; [|split]; reflexivity. Qed.

(** C2: the length of every year is the sum of the lengths of its twelve
    months, and it is 355 for a leap year and 354 otherwise. *)
Theorem year_length_sum_months (y : Z) :
  getTotalDaysInJavaneseYear y = sumMonths y 1 12 /\
  getTotalDaysInJavaneseYear y = (if isJavaneseLeapYear y then 355 else 354).
Proof.
  rewrite sumMonths_year. unfold getTotalDaysInJavaneseYear. split; reflexivity.
Qed.

(** C3: for a year >= 1, it is a leap year iff its position in its 8-year
    cycle (cycle 1 = years 1..8) is 2, 5 or 8; any 8 consecutive years from
    it hold exactly 3 leap years; and leap status repeats after 8 years. *)
Theorem leap_year_cycle (y : Z) (Hy : 1 <= y) :
  (isJavaneseLeapYear y = true <-> In (cyclePosition y) [2; 5; 8]) /\
  countLeap y 8 = 3%nat /\
  isJavaneseLeapYear (y + 8) = isJavaneseLeapYear y.
Proof.
  split; [|split].
  - rewrite isJavaneseLeapYear_mod, existsb_eqb_In. unfold cyclePosition.
    pose proof (Z.mod_pos_bound (y - 1) 8 ltac:(lia)).
    cbn [In]. lia.
  - replace y with (1 + Z.of_nat (Z.to_nat (y - 1))) by lia.
    apply countLeap_8.
  - apply isJavaneseLeapYear_plus8.
Qed.

(** C9 (failing input): for the year 1801 the intermediate [yearInCycle]
    of [isJavaneseLeapYear] is 9, outside [1, 8]; over all years it ranges
    over [2, 9]. *)
Theorem yearInCycle_1801 :
  yearInCycle 1801 = 9 /\
  forall y, 2 <= yearInCycle y <= 9.
Proof.
  split; [reflexivity|].
  intros y. rewrite yearInCycle_eq.
  pose proof (Z.mod_pos_bound (y - 1) 8 ltac:(lia)).
  destruct (Z.eqb_spec ((y - 1) mod 8) 0); lia.
Qed.

(** C5: an instant strictly before the epoch anchor has a negative elapsed
    day count; neither loop runs; the result is year 1795, month 1 and a
    day <= 0, and the conversion still returns a result. *)
Theorem toJavanese_pre_epoch (lo : Z -> Z) (t : Z) (Ht : t < epochMs) :
  let jd := elapsedDays t in
  let r := toJavanese lo t in
  jd < 0 /\
  yearLoop (loopFuel jd) jd 1795 = (jd, 1795) /\
  monthLoop (loopFuel jd) 1795 jd 1 = (jd, 1) /\
  day r = jd + 1 /\ day r <= 0 /\ year r = 1795 /\ month r = 1.
Proof.
  cbv zeta.
  assert (Hjd : elapsedDays t < 0).
  { unfold elapsedDays, msPerDay. Z.div_mod_to_equations. lia. }
  assert (Ey : yearLoop (loopFuel (elapsedDays t)) (elapsedDays t) 1795
               = (elapsedDays t, 1795)).
  { unfold loopFuel. cbn [yearLoop].
    pose proof (getTotalDaysInJavaneseYear_bounds 1795).
    destruct (Z.geb_spec (elapsedDays t) (getTotalDaysInJavaneseYear 1795));
      [lia | reflexivity]. }
  assert (Em : monthLoop (loopFuel (elapsedDays t)) 1795 (elapsedDays t) 1
               = (elapsedDays t, 1)).
  { unfold loopFuel. cbn [monthLoop].
    pose proof (getDaysInJavaneseMonth_bounds 1795 1).
    destruct (Z.geb_spec (elapsedDays t) (getDaysInJavaneseMonth 1795 1));
      [lia | reflexivity]. }
  unfold toJavanese. rewrite Ey, Em. cbn.
  repeat split; try assumption; lia.
Qed.

(** C7 (counterexample): one day before the epoch anchor the day of the
    month is 0, so the invariants do not hold for every input. *)
Lemma wellFormed_fails_pre_epoch :
  day (toJavanese utc (epochMs - msPerDay)) = 0 /\
  ~ wellFormed utc (epochMs - msPerDay).
Proof.
  assert (E : day (toJavanese utc (epochMs - msPerDay)) = 0) by reflexivity.
  split; [exact E|].
  unfold wellFormed. cbv zeta. rewrite E. intros [_ [Hd _]]. lia.
Qed.

(** C7 (amended): for every instant at or after the epoch anchor, the month
    is in 1..12, the day in 1..daysInMonth(year, month), the pasaran index
    in 0..4, the wuku index in 0..29, and the four names are read at an
    index inside their tables. *)
Theorem toJavanese_wellFormed (lo : Z -> Z) (t : Z) (Ht : epochMs <= t) :
  wellFormed lo t.
Proof.
  assert (H0 : 0 <= elapsedDays t).
  { unfold elapsedDays, msPerDay. Z.div_mod_to_equations. lia. }
  destruct (yearLoop_exits (loopFuel (elapsedDays t)) (elapsedDays t) 1795 H0
              ltac:(unfold loopFuel; lia)) as [n [Ey Ry]].
  set (y := 1795 + Z.of_nat n) in *.
  set (jd1 := elapsedDays t - yearsSpan 1795 n) in *.
  assert (Hm := monthLoop_exits (loopFuel jd1) y jd1 1 ltac:(lia)
                 ltac:(cbv [Z.sub Z.to_nat]; rewrite sumMonths_year;
                       unfold getTotalDaysInJavaneseYear in Ry; lia)
                 ltac:(unfold loopFuel; lia)).
  destruct (monthLoop (loopFuel jd1) y jd1 1) as [r m] eqn:Em.
  pose proof (getDay_bounds lo t) as Hdow.
  assert (Hp : 0 <= Z.rem (getDay lo t + 1) 5 < 5)
    by (apply Z.rem_bound_pos; lia).
  pose proof (getDaysInJavaneseMonth_bounds y m) as Bm.
  assert (Hw0 : 0 <= (r + 1) / 7 <= 4) by (Z.div_mod_to_equations; lia).
  assert (Hw : Z.rem ((r + 1) / 7) 30 = (r + 1) / 7)
    by (apply Z.rem_small; lia).
  unfold wellFormed, toJavanese. cbv zeta. rewrite Ey, Em.
  cbn [year month day monthName dayName pasaran wuku Cycle.day Cycle.name].
  rewrite Hw.
  repeat split; try lia; apply tableEntry_jsIndex; cbn [List.length WULAN DINTEN PASARAN WUKU Z.of_nat Pos.of_succ_nat Pos.succ]; lia.
Qed.

(** C6: the wuku index is [floor((offset + 1) / 7) % 30] where [offset] is
    the residual day offset left after subtracting the whole years and the
    whole months, the same offset that gives [day = offset + 1]; the wuku
    name is read from the wuku table at that index. *)
Theorem wuku_from_residual_offset (lo : Z -> Z) (t : Z) :
  let r := toJavanese lo t in
  exists (n k : nat) (offset : Z),
    year r = 1795 + Z.of_nat n /\
    month r = 1 + Z.of_nat k /\
    offset = elapsedDays t - yearsSpan 1795 n - sumMonths (year r) 1 k /\
    day r = offset + 1 /\
    Cycle.day (wuku r) = Z.rem ((offset + 1) / 7) 30 /\
    Cycle.name (wuku r) = jsIndex WUKU (Cycle.day (wuku r)).
Proof.
  cbv zeta.
  destruct (yearLoop_shape (loopFuel (elapsedDays t)) (elapsedDays t) 1795)
    as [n Ey].
  set (y := 1795 + Z.of_nat n) in *.
  set (jd1 := elapsedDays t - yearsSpan 1795 n) in *.
  destruct (monthLoop_shape (loopFuel jd1) y jd1 1) as [k Em].
  unfold toJavanese. cbv zeta. rewrite Ey, Em.
  cbn [year month day wuku Cycle.day Cycle.name].
  exists n, k, (jd1 - sumMonths y 1 k).
  repeat split; reflexivity.
Qed.

Lemma year_toJavanese (lo : Z -> Z) (t : Z) :
  year (toJavanese lo t) =
  snd (yearLoop (loopFuel (elapsedDays t)) (elapsedDays t) 1795).
Proof.
  unfold toJavanese. cbv zeta.
  destruct (yearLoop _ _ _) as [jd1 y].
  destruct (monthLoop _ _ _ _) as [jd m].
  reflexivity.
Qed.

(** C8 (counterexample): two instants before the epoch anchor, more than a
    full 8-year cycle apart, both resolve to the year 1795. *)
Lemma year_not_increasing_pre_epoch :
  let t1 := epochMs - 10000 * msPerDay in
  let t2 := epochMs - 1 in
  t1 < t2 /\ t2 - t1 > yearsSpan 1795 8 * msPerDay /\
  year (toJavanese utc t1) = 1795 /\ year (toJavanese utc t2) = 1795.
Proof.
  cbv zeta. split; [|split; [|split]].
  - unfold epochMs, msPerDay. lia.
  - vm_compute. reflexivity.
  - reflexivity.
  - reflexivity.
Qed.

(** C8 (amended): for an instant [t1] at or after the epoch anchor and an
    instant [t2] at least 355 days (the longest Javanese year) later, the
    year resolved for [t2] is strictly greater than the one for [t1]. *)
Theorem year_increasing_post_epoch (lo : Z -> Z) (t1 t2 : Z)
  (H1 : epochMs <= t1) (H2 : t1 + 355 * msPerDay <= t2) :
  year (toJavanese lo t1) < year (toJavanese lo t2).
Proof.
  rewrite !year_toJavanese.
  assert (E1 : 0 <= elapsedDays t1).
  { unfold elapsedDays, msPerDay. Z.div_mod_to_equations. lia. }
  assert (E2 : elapsedDays t1 + 355 <= elapsedDays t2).
  { unfold elapsedDays, msPerDay in *. Z.div_mod_to_equations. lia. }
  destruct (yearLoop_exits (loopFuel (elapsedDays t1)) (elapsedDays t1) 1795
              E1 ltac:(unfold loopFuel; lia)) as [n1 [Ey1 R1]].
  destruct (yearLoop_exits (loopFuel (elapsedDays t2)) (elapsedDays t2) 1795
              ltac:(lia) ltac:(unfold loopFuel; lia)) as [n2 [Ey2 R2]].
  rewrite Ey1, Ey2. cbn [snd].
  destruct (Nat.lt_ge_cases n1 n2) as [Hlt|Hge]; [lia|].
  exfalso.
  pose proof (yearsSpan_mono 1795 (S n2) (S n1) ltac:(lia)) as M.
  rewrite !yearsSpan_S_r in M.
  pose proof (getTotalDaysInJavaneseYear_bounds (1795 + Z.of_nat n1)).
  lia.
Qed.

(** C4 (failing input, host in UTC): Tuesday 2024-01-02 has pasaran 3 (Pon)
    and the Sunday five days later has pasaran 1 (Legi); Saturday 2024-01-06
    has pasaran 2 (Pahing) and the next day pasaran 1, a step back. *)
Theorem pasaran_not_five_day_cycle :
  let tue := 1704153600000 in
  let sat := 1704499200000 in
  pasaran (toJavanese utc tue) = Cycle.mk 3 (Some "Pon"%string) /\
  pasaran (toJavanese utc (tue + 5 * msPerDay)) = Cycle.mk 1 (Some "Legi"%string) /\
  pasaran (toJavanese utc sat) = Cycle.mk 2 (Some "Pahing"%string) /\
  pasaran (toJavanese utc (sat + msPerDay)) = Cycle.mk 1 (Some "Legi"%string).
Proof.
  cbv zeta. rewrite !pasaran_toJavanese. repeat split; reflexivity.
Qed.

Lemma getDay_localDayNumber (lo : Z -> Z) (t : Z) :
  getDay lo t = (localDayNumber lo t + 4) mod 7.
Proof. reflexivity. Qed.

(** C10: on any host, the pasaran depends only on the local day of the
    week; it repeats after 7 local calendar days, and after 5 local
    calendar days it repeats only from a Sunday or a Monday, so it has no
    5-day period. *)
Theorem pasaran_by_weekday (lo : Z -> Z) :
  (forall t1 t2, getDay lo t1 = getDay lo t2 ->
     pasaran (toJavanese lo t1) = pasaran (toJavanese lo t2)) /\
  (forall t1 t2, localDayNumber lo t2 = localDayNumber lo t1 + 7 ->
     pasaran (toJavanese lo t2) = pasaran (toJavanese lo t1)) /\
  (forall t1 t2, localDayNumber lo t2 = localDayNumber lo t1 + 5 ->
     (pasaran (toJavanese lo t2) = pasaran (toJavanese lo t1) <->
      getDay lo t1 = 0 \/ getDay lo t1 = 1)).
Proof.
  split; [|split].
  - intros t1 t2 E. rewrite !pasaran_toJavanese, E. reflexivity.
  - intros t1 t2 E. rewrite !pasaran_toJavanese.
    assert (G : getDay lo t2 = getDay lo t1).
    { rewrite !getDay_localDayNumber, E.
      replace (localDayNumber lo t1 + 7 + 4) with (localDayNumber lo t1 + 4 + 1 * 7)
        by lia.
      apply Z_mod_plus_full. }
    rewrite G. reflexivity.
  - intros t1 t2 E. rewrite !pasaran_toJavanese.
    assert (G : getDay lo t2 = (getDay lo t1 + 5) mod 7).
    { rewrite !getDay_localDayNumber, E, Zplus_mod_idemp_l.
      f_equal. lia. }
    rewrite G.
    pose proof (getDay_bounds lo t1) as B.
    assert (C : getDay lo t1 = 0 \/ getDay lo t1 = 1 \/ getDay lo t1 = 2 \/
                getDay lo t1 = 3 \/ getDay lo t1 = 4 \/ getDay lo t1 = 5 \/
                getDay lo t1 = 6) by lia.
    destruct C as [C|[C|[C|[C|[C|[C|C]]]]]]; rewrite C; cbn;
      split; intro H; first [lia | discriminate H | reflexivity].
Qed.

(** * Witnesses *)

Lemma leap_year_cycle_witness :
  1 <= 1795 /\
  ((isJavaneseLeapYear 1795 = true <-> In (cyclePosition 1795) [2; 5; 8]) /\
   countLeap 1795 8 = 3%nat /\
   isJavaneseLeapYear (1795 + 8) = isJavaneseLeapYear 1795).
Proof. split; [lia | apply (leap_year_cycle 1795); lia]. Defined.

Lemma toJavanese_pre_epoch_witness :
  epochMs - 1 < epochMs /\
  (let jd := elapsedDays (epochMs - 1) in
   let r := toJavanese utc (epochMs - 1) in
   jd < 0 /\
   yearLoop (loopFuel jd) jd 1795 = (jd, 1795) /\
   monthLoop (loopFuel jd) 1795 jd 1 = (jd, 1) /\
   day r = jd + 1 /\ day r <= 0 /\ year r = 1795 /\ month r = 1).
Proof.
  split; [unfold epochMs; lia | apply (toJavanese_pre_epoch utc (epochMs - 1)); unfold epochMs; lia].
Defined.

Lemma toJavanese_wellFormed_witness :
  epochMs <= 1704153600000 /\ wellFormed utc 1704153600000.
Proof.
  split; [unfold epochMs; lia | apply (toJavanese_wellFormed utc 1704153600000); unfold epochMs; lia].
Defined.

Lemma year_increasing_post_epoch_witness :
  epochMs <= epochMs /\ epochMs + 355 * msPerDay <= 1704153600000 /\
  year (toJavanese utc epochMs) < year (toJavanese utc 1704153600000).
Proof.
  split; [lia|]. split; [unfold epochMs, msPerDay; lia|].
  apply (year_increasing_post_epoch utc epochMs 1704153600000);
    unfold epochMs, msPerDay; lia.
Defined.


(** * Further properties of the conversion *)

Lemma yearsSpan_lower (y : Z) (n : nat) : 354 * Z.of_nat n <= yearsSpan y n.
Proof.
  revert y. induction n as [|n IH]; intros y; cbn [yearsSpan]; [lia|].
  specialize (IH (y + 1)). pose proof (getTotalDaysInJavaneseYear_bounds y). lia.
Qed.

Lemma sumMonths_lower (y m : Z) (k : nat) : 29 * Z.of_nat k <= sumMonths y m k.
Proof.
  revert m. induction k as [|k IH]; intros m; cbn [sumMonths]; [lia|].
  specialize (IH (m + 1)). pose proof (getDaysInJavaneseMonth_bounds y m). lia.
Qed.

Lemma sumMonths_S_r (y m : Z) (k : nat) :
  sumMonths y m (S k) = sumMonths y m k + getDaysInJavaneseMonth y (m + Z.of_nat k).
Proof.
  revert m. induction k as [|k IH]; intros m.
  - cbn. replace (m + 0) with m by lia. lia.
  - change (sumMonths y m (S (S k)))
      with (getDaysInJavaneseMonth y m + sumMonths y (m + 1) (S k)).
    rewrite IH. cbn [sumMonths].
    replace (m + 1 + Z.of_nat k) with (m + Z.of_nat (S k)) by lia. lia.
Qed.

Lemma sumMonths_mono (y m : Z) (k l : nat) :
  (k <= l)%nat -> sumMonths y m k <= sumMonths y m l.
Proof.
  induction 1 as [|l _ IH]; [lia|].
  rewrite sumMonths_S_r.
  pose proof (getDaysInJavaneseMonth_bounds y (m + Z.of_nat l)). lia.
Qed.

Lemma yearsSpan_add (y : Z) (n p : nat) :
  yearsSpan y (n + p) = yearsSpan y n + yearsSpan (y + Z.of_nat n) p.
Proof.
  revert y. induction n as [|n IH]; intros y.
  - cbn. replace (y + 0) with y by lia. lia.
  - cbn [Nat.add yearsSpan]. rewrite IH.
    replace (y + 1 + Z.of_nat n) with (y + Z.of_nat (S n)) by lia. lia.
Qed.

Lemma yearsSpan_countLeap (y : Z) (n : nat) :
  yearsSpan y n = 354 * Z.of_nat n + Z.of_nat (countLeap y n).
Proof.
  revert y. induction n as [|n IH]; intros y; [reflexivity|].
  cbn [yearsSpan countLeap]. rewrite IH. unfold getTotalDaysInJavaneseYear.
  destruct (isJavaneseLeapYear y); cbn [Nat.add]; lia.
Qed.

Lemma countLeap_8_all (y : Z) : countLeap y 8 = 3%nat.
Proof.
  replace y with (1 + (y - 1)) by lia.
  generalize (y - 1) as z. intros z.
  induction z as [|z IH|z IH] using Z.peano_ind.
  - reflexivity.
  - replace (1 + Z.succ z) with (1 + z + 1) by lia.
    rewrite countLeap_shift. exact IH.
  - rewrite <- countLeap_shift.
    replace (1 + Z.pred z + 1) with (1 + z) by lia. exact IH.
Qed.

Lemma getDaysInJavaneseMonth_plus8 (y m : Z) :
  getDaysInJavaneseMonth (y + 8) m = getDaysInJavaneseMonth y m.
Proof. unfold getDaysInJavaneseMonth. rewrite isJavaneseLeapYear_plus8. reflexivity. Qed.

Lemma sumMonths_plus8 (y m : Z) (k : nat) :
  sumMonths (y + 8) m k = sumMonths y m k.
Proof.
  revert m. induction k as [|k IH]; intros m; cbn [sumMonths]; [reflexivity|].
  rewrite getDaysInJavaneseMonth_plus8, IH. reflexivity.
Qed.

(** Given the decomposition of the day count into whole years and a
    remainder that fits in the next year, the year loop finds it. *)
Lemma yearLoop_resolve (n fuel : nat) (y jd r : Z) :
  (n < fuel)%nat -> 0 <= r < getTotalDaysInJavaneseYear (y + Z.of_nat n) ->
  jd = yearsSpan y n + r ->
  yearLoop fuel jd y = (r, y + Z.of_nat n).
Proof.
  revert fuel y jd. induction n as [|n IH]; intros fuel y jd Hf Hr Hjd;
    (destruct fuel as [|fuel]; [lia|]); cbn [yearLoop].
  - cbn [yearsSpan] in Hjd. replace (y + Z.of_nat 0) with y in * by lia.
    destruct (Z.geb_spec jd (getTotalDaysInJavaneseYear y)); [lia|].
    f_equal; lia.
  - cbn [yearsSpan] in Hjd.
    pose proof (yearsSpan_lower (y + 1) n).
    destruct (Z.geb_spec jd (getTotalDaysInJavaneseYear y)); [|lia].
    rewrite (IH fuel (y + 1) (jd - getTotalDaysInJavaneseYear y)).
    + f_equal; lia.
    + lia.
    + replace (y + 1 + Z.of_nat n) with (y + Z.of_nat (S n)) by lia. exact Hr.
    + lia.
Qed.

(** The same for the month loop. *)
Lemma monthLoop_resolve (k fuel : nat) (y m jd r : Z) :
  (k < fuel)%nat -> 0 <= r < getDaysInJavaneseMonth y (m + Z.of_nat k) ->
  jd = sumMonths y m k + r ->
  monthLoop fuel y jd m = (r, m + Z.of_nat k).
Proof.
  revert fuel m jd. induction k as [|k IH]; intros fuel m jd Hf Hr Hjd;
    (destruct fuel as [|fuel]; [lia|]); cbn [monthLoop].
  - cbn [sumMonths] in Hjd. replace (m + Z.of_nat 0) with m in * by lia.
    destruct (Z.geb_spec jd (getDaysInJavaneseMonth y m)); [lia|].
    f_equal; lia.
  - cbn [sumMonths] in Hjd.
    pose proof (sumMonths_lower y (m + 1) k).
    destruct (Z.geb_spec jd (getDaysInJavaneseMonth y m)); [|lia].
    rewrite (IH fuel (m + 1) (jd - getDaysInJavaneseMonth y m)).
    + f_equal; lia.
    + lia.
    + replace (m + 1 + Z.of_nat k) with (m + Z.of_nat (S k)) by lia. exact Hr.
    + lia.
Qed.

Lemma elapsedDays_nonneg (t : Z) : epochMs <= t -> 0 <= elapsedDays t.
Proof. intros H. unfold elapsedDays, msPerDay. Z.div_mod_to_equations. lia. Qed.

(** At or after the epoch anchor, the result decomposes the day count
    into whole years from 1795, whole months of the year, and the day. *)
Lemma toJavanese_resolved (lo : Z -> Z) (t : Z) :
  epochMs <= t ->
  exists n k : nat,
    year (toJavanese lo t) = 1795 + Z.of_nat n /\
    month (toJavanese lo t) = 1 + Z.of_nat k /\ (k < 12)%nat /\
    1 <= day (toJavanese lo t) <=
      getDaysInJavaneseMonth (year (toJavanese lo t)) (month (toJavanese lo t)) /\
    elapsedDays t =
      yearsSpan 1795 n + sumMonths (year (toJavanese lo t)) 1 k + (day (toJavanese lo t) - 1).
Proof.
  intros Ht. pose proof (elapsedDays_nonneg t Ht) as H0.
  destruct (yearLoop_exits (loopFuel (elapsedDays t)) (elapsedDays t) 1795 H0
              ltac:(unfold loopFuel; lia)) as [n [Ey Ry]].
  set (y := 1795 + Z.of_nat n) in *.
  set (jd1 := elapsedDays t - yearsSpan 1795 n) in *.
  assert (Hm := monthLoop_exits (loopFuel jd1) y jd1 1 ltac:(lia)
                 ltac:(cbv [Z.sub Z.to_nat]; rewrite sumMonths_year;
                       unfold getTotalDaysInJavaneseYear in Ry; lia)
                 ltac:(unfold loopFuel; lia)).
  destruct (monthLoop_shape (loopFuel jd1) y jd1 1) as [k Ek].
  rewrite Ek in Hm.
  unfold toJavanese. cbv zeta. rewrite Ey, Ek.
  cbn [year month day].
  exists n, k. repeat split; try lia.
Qed.

(** Conversely, an instant whose day count is the ordinal of a valid date
    from 1795 on converts to that date. *)
Lemma toJavanese_of_ordinal (lo : Z -> Z) (t : Z) (n k : nat) (d : Z) :
  (k < 12)%nat ->
  1 <= d <= getDaysInJavaneseMonth (1795 + Z.of_nat n) (1 + Z.of_nat k) ->
  elapsedDays t = yearsSpan 1795 n + sumMonths (1795 + Z.of_nat n) 1 k + (d - 1) ->
  year (toJavanese lo t) = 1795 + Z.of_nat n /\
  month (toJavanese lo t) = 1 + Z.of_nat k /\
  day (toJavanese lo t) = d.
Proof.
  intros Hk Hd Ht.
  remember (1795 + Z.of_nat n) as y eqn:Hy.
  remember (sumMonths y 1 k + (d - 1)) as r0 eqn:Hr.
  pose proof (sumMonths_mono y 1 (S k) 12 ltac:(lia)) as M.
  rewrite sumMonths_S_r, sumMonths_year in M.
  assert (Hr0 : 0 <= r0 < getTotalDaysInJavaneseYear y).
  { pose proof (sumMonths_lower y 1 k).
    unfold getTotalDaysInJavaneseYear. lia. }
  pose proof (yearsSpan_lower 1795 n).
  pose proof (sumMonths_lower y 1 k).
  unfold toJavanese. cbv zeta.
  rewrite (yearLoop_resolve n (loopFuel (elapsedDays t)) 1795 (elapsedDays t) r0)
    by (unfold loopFuel; subst; lia).
  rewrite <- Hy.
  rewrite (monthLoop_resolve k (loopFuel r0) y 1 r0 (d - 1))
    by (unfold loopFuel; subst; lia).
  cbn [year month day]. repeat split; lia.
Qed.

Lemma wuku_toJavanese (lo : Z -> Z) (t : Z) :
  wuku (toJavanese lo t) =
  Cycle.mk (Z.rem (day (toJavanese lo t) / 7) 30)
           (jsIndex WUKU (Z.rem (day (toJavanese lo t) / 7) 30)).
Proof.
  unfold toJavanese.
  destruct (yearLoop _ _ _) as [jd1 y].
  destruct (monthLoop _ _ _ _) as [jd m].
  reflexivity.
Qed.

Lemma elapsedDays_add_days (t : Z) (n : Z) :
  elapsedDays (t + n * msPerDay) = elapsedDays t + n.
Proof.
  unfold elapsedDays.
  replace (t + n * msPerDay - epochMs) with (t - epochMs + n * msPerDay) by lia.
  apply Z.div_add. unfold msPerDay. lia.
Qed.

Lemma dayName_toJavanese (lo : Z -> Z) (t : Z) :
  dayName (toJavanese lo t) = jsIndex DINTEN (getDay lo t).
Proof.
  unfold toJavanese.
  destruct (yearLoop _ _ _) as [jd1 y].
  destruct (monthLoop _ _ _ _) as [jd m].
  reflexivity.
Qed.

Lemma year_toJavanese_ge (lo : Z -> Z) (t : Z) : 1795 <= year (toJavanese lo t).
Proof.
  rewrite year_toJavanese.
  destruct (yearLoop_shape (loopFuel (elapsedDays t)) (elapsedDays t) 1795) as [n E].
  rewrite E. cbn [snd]. lia.
Qed.

Lemma year_toJavanese_pre (lo : Z -> Z) (t : Z) :
  t < epochMs -> year (toJavanese lo t) = 1795.
Proof.
  intros Ht. rewrite year_toJavanese.
  assert (Hjd : elapsedDays t < 0).
  { unfold elapsedDays, msPerDay. Z.div_mod_to_equations. lia. }
  unfold loopFuel. cbn [yearLoop].
  pose proof (getTotalDaysInJavaneseYear_bounds 1795).
  destruct (Z.geb_spec (elapsedDays t) (getTotalDaysInJavaneseYear 1795));
    [lia | reflexivity].
Qed.

(** X1: at or after the epoch anchor, the resolved date is a date from
    1795 on with a month in 1..12, and its ordinal (whole years, whole
    months, day - 1) is exactly the number of days since the anchor. *)
Theorem javaneseOrdinal_toJavanese (lo : Z -> Z) (t : Z) (Ht : epochMs <= t) :
  let r := toJavanese lo t in
  1795 <= year r /\ 1 <= month r <= 12 /\
  javaneseOrdinal (year r) (month r) (day r) = elapsedDays t.
Proof.
  cbv zeta.
  destruct (toJavanese_resolved lo t Ht) as [n [k [Ey [Em [Hk [Hd E]]]]]].
  unfold javaneseOrdinal. rewrite Ey, Em in *.
  replace (Z.to_nat (1795 + Z.of_nat n - 1795)) with n by lia.
  replace (Z.to_nat (1 + Z.of_nat k - 1)) with k by lia.
  repeat split; lia.
Qed.

(** X2: every valid date (year >= 1795, month in 1..12, day in
    1..daysInMonth) is the result for every instant whose day count since
    the anchor is the date's ordinal. *)
Theorem toJavanese_javaneseOrdinal (lo : Z -> Z) (t y m d : Z)
  (Hy : 1795 <= y) (Hm : 1 <= m <= 12)
  (Hd : 1 <= d <= getDaysInJavaneseMonth y m)
  (Ht : elapsedDays t = javaneseOrdinal y m d) :
  year (toJavanese lo t) = y /\ month (toJavanese lo t) = m /\
  day (toJavanese lo t) = d.
Proof.
  assert (exists n, y = 1795 + Z.of_nat n) as [n ->]
    by (exists (Z.to_nat (y - 1795)); lia).
  assert (exists k, m = 1 + Z.of_nat k) as [k ->]
    by (exists (Z.to_nat (m - 1)); lia).
  unfold javaneseOrdinal in Ht.
  replace (Z.to_nat (1795 + Z.of_nat n - 1795)) with n in Ht by lia.
  replace (Z.to_nat (1 + Z.of_nat k - 1)) with k in Ht by lia.
  apply toJavanese_of_ordinal; [lia | exact Hd | exact Ht].
Qed.

(** X3: one day later, [generateJavaneseTimestamp] gives the next Javanese
    date: the next day of the month, or day 1 of the next month, or day 1
    of month 1 of the next year after the last day of month 12. *)
Theorem generateJavaneseTimestamp_next_day (lo : Z -> Z) (t : Z) (Ht : epochMs <= t) :
  let r := generateJavaneseTimestamp lo t in
  let r' := generateJavaneseTimestamp lo (t + msPerDay) in
  (year r', month r', day r') = nextDate (year r) (month r) (day r).
Proof.
  cbv zeta. unfold generateJavaneseTimestamp.
  destruct (toJavanese_resolved lo t Ht) as [n [k [Ey [Em [Hk [Hd E]]]]]].
  rewrite Ey, Em in *.
  remember (day (toJavanese lo t)) as d eqn:Ed. clear Ed.
  assert (E1 : elapsedDays (t + msPerDay) = elapsedDays t + 1).
  { replace (t + msPerDay) with (t + 1 * msPerDay) by lia.
    apply elapsedDays_add_days. }
  unfold nextDate.
  destruct (Z.ltb_spec d (getDaysInJavaneseMonth (1795 + Z.of_nat n) (1 + Z.of_nat k))).
  - destruct (toJavanese_of_ordinal lo (t + msPerDay) n k (d + 1) Hk ltac:(lia)
                ltac:(lia)) as [Y [M D]].
    rewrite Y, M, D; reflexivity.
  - destruct (Z.ltb_spec (1 + Z.of_nat k) 12).
    + pose proof (sumMonths_S_r (1795 + Z.of_nat n) 1 k) as S1.
      pose proof (getDaysInJavaneseMonth_bounds (1795 + Z.of_nat n) (1 + Z.of_nat (S k))).
      destruct (toJavanese_of_ordinal lo (t + msPerDay) n (S k) 1 ltac:(lia)
                  ltac:(lia) ltac:(lia)) as [Y [M D]].
      replace (1 + Z.of_nat (S k)) with (1 + Z.of_nat k + 1) in M by lia.
      rewrite Y, M, D; reflexivity.
    + assert (k = 11%nat) by lia. subst k.
      pose proof (yearsSpan_S_r 1795 n) as S1.
      pose proof (sumMonths_year (1795 + Z.of_nat n)) as S2.
      pose proof (sumMonths_S_r (1795 + Z.of_nat n) 1 11) as S3.
      unfold getTotalDaysInJavaneseYear in S1.
      pose proof (getDaysInJavaneseMonth_bounds (1795 + Z.of_nat (S n)) (1 + Z.of_nat 0)).
      destruct (toJavanese_of_ordinal lo (t + msPerDay) (S n) 0 1 ltac:(lia)
                  ltac:(lia) ltac:(cbn [sumMonths]; lia)) as [Y [M D]].
      replace (1795 + Z.of_nat (S n)) with (1795 + Z.of_nat n + 1) in Y by lia.
      rewrite Y, M, D; reflexivity.
Qed.

(** X4: any 8 consecutive years, of any starting year, hold 3 leap years
    and 2835 days in total. *)
Theorem eight_year_cycle_length (y : Z) :
  countLeap y 8 = 3%nat /\ yearsSpan y 8 = 2835.
Proof.
  rewrite yearsSpan_countLeap, countLeap_8_all. split; reflexivity.
Qed.

(** X5: at or after the epoch anchor, moving 2835 days (one 8-year cycle)
    later gives the same month and day, 8 years later. *)
Theorem toJavanese_eight_year_period (lo : Z -> Z) (t : Z) (Ht : epochMs <= t) :
  let r := toJavanese lo t in
  let r' := toJavanese lo (t + 2835 * msPerDay) in
  year r' = year r + 8 /\ month r' = month r /\ day r' = day r.
Proof.
  cbv zeta.
  destruct (toJavanese_resolved lo t Ht) as [n [k [Ey [Em [Hk [Hd E]]]]]].
  rewrite Ey, Em in *.
  pose proof (yearsSpan_add 1795 n 8) as A.
  rewrite (yearsSpan_countLeap (1795 + Z.of_nat n) 8), countLeap_8_all in A.
  replace (1795 + Z.of_nat n + 8) with (1795 + Z.of_nat (n + 8)) by lia.
  destruct (toJavanese_of_ordinal lo (t + 2835 * msPerDay) (n + 8) k
              (day (toJavanese lo t)) Hk) as [Y [M D]].
  - replace (1795 + Z.of_nat (n + 8)) with (1795 + Z.of_nat n + 8) by lia.
    rewrite getDaysInJavaneseMonth_plus8. exact Hd.
  - rewrite elapsedDays_add_days.
    replace (1795 + Z.of_nat (n + 8)) with (1795 + Z.of_nat n + 8) by lia.
    rewrite sumMonths_plus8. cbn [Z.of_nat Pos.of_succ_nat Pos.succ] in A. lia.
  - rewrite Y, M, D. repeat split.
Qed.

(** X6: at or after the epoch anchor, the wuku index is at most 4, so only
    the first five wuku names (Sinta, Landep, Wukir, Kurantil, Tolu) are
    ever returned. *)
Theorem wuku_first_five_post_epoch (lo : Z -> Z) (t : Z) (Ht : epochMs <= t) :
  let r := toJavanese lo t in
  0 <= Cycle.day (wuku r) <= 4 /\
  In (Cycle.name (wuku r))
     (map Some ["Sinta"; "Landep"; "Wukir"; "Kurantil"; "Tolu"]%string).
Proof.
  cbv zeta. rewrite wuku_toJavanese. cbn [Cycle.day Cycle.name].
  destruct (toJavanese_resolved lo t Ht) as [n [k [_ [_ [_ [Hd _]]]]]].
  pose proof (getDaysInJavaneseMonth_bounds (year (toJavanese lo t))
                (month (toJavanese lo t))).
  remember (day (toJavanese lo t)) as d eqn:Ed. clear Ed.
  assert (Hq : 0 <= d / 7 <= 4) by (Z.div_mod_to_equations; lia).
  rewrite (Z.rem_small (d / 7) 30) by lia.
  split; [exact Hq|].
  assert (C : d / 7 = 0 \/ d / 7 = 1 \/ d / 7 = 2 \/ d / 7 = 3 \/ d / 7 = 4)
    by lia.
  destruct C as [C|[C|[C|[C|C]]]]; rewrite C; cbn; tauto.
Qed.

(** X7: for every input, also before the epoch anchor, the day name and
    the pasaran name are read inside their tables: [dayName] is the
    [getDay()]-th day name and the pasaran index is in 0..4. *)
Theorem weekday_names_always_defined (lo : Z -> Z) (t : Z) :
  let r := toJavanese lo t in
  tableEntry DINTEN (getDay lo t) (dayName r) /\
  0 <= Cycle.day (pasaran r) <= 4 /\
  tableEntry PASARAN (Cycle.day (pasaran r)) (Cycle.name (pasaran r)).
Proof.
  cbv zeta. rewrite dayName_toJavanese, pasaran_toJavanese.
  cbn [Cycle.day Cycle.name].
  pose proof (getDay_bounds lo t).
  assert (Hp : 0 <= Z.rem (getDay lo t + 1) 5 < 5)
    by (apply Z.rem_bound_pos; lia).
  split; [|split]; [| lia |]; apply tableEntry_jsIndex; cbn; lia.
Qed.

(** X8: the resolved year never decreases as time advances, for all
    instants, before and after the epoch anchor. *)
Theorem year_nondecreasing (lo : Z -> Z) (t1 t2 : Z) (H : t1 <= t2) :
  year (toJavanese lo t1) <= year (toJavanese lo t2).
Proof.
  pose proof (year_toJavanese_ge lo t2).
  destruct (Z.ltb_spec t1 epochMs) as [Hpre|Hpost].
  - rewrite (year_toJavanese_pre lo t1 Hpre). lia.
  - rewrite !year_toJavanese.
    pose proof (elapsedDays_nonneg t1 Hpost) as E1.
    assert (E2 : elapsedDays t1 <= elapsedDays t2).
    { unfold elapsedDays. apply Z.div_le_mono; unfold msPerDay; lia. }
    destruct (yearLoop_exits (loopFuel (elapsedDays t1)) (elapsedDays t1) 1795
                E1 ltac:(unfold loopFuel; lia)) as [n1 [Ey1 R1]].
    destruct (yearLoop_exits (loopFuel (elapsedDays t2)) (elapsedDays t2) 1795
                ltac:(lia) ltac:(unfold loopFuel; lia)) as [n2 [Ey2 R2]].
    rewrite Ey1, Ey2. cbn [snd].
    destruct (Nat.le_gt_cases n1 n2) as [Hle|Hgt]; [lia|].
    exfalso.
    pose proof (yearsSpan_mono 1795 (S n2) n1 ltac:(lia)) as M.
    rewrite yearsSpan_S_r in M. lia.
Qed.

Lemma ymd_toJavanese_elapsed (lo1 lo2 : Z -> Z) (t1 t2 : Z) :
  elapsedDays t1 = elapsedDays t2 ->
  year (toJavanese lo1 t1) = year (toJavanese lo2 t2) /\
  month (toJavanese lo1 t1) = month (toJavanese lo2 t2) /\
  day (toJavanese lo1 t1) = day (toJavanese lo2 t2) /\
  monthName (toJavanese lo1 t1) = monthName (toJavanese lo2 t2) /\
  wuku (toJavanese lo1 t1) = wuku (toJavanese lo2 t2).
Proof.
  intros E. unfold toJavanese. cbv zeta. rewrite E.
  destruct (yearLoop _ _ _) as [jd1 y].
  destruct (monthLoop _ _ _ _) as [jd m].
  repeat split.
Qed.

(** X9: two instants at or after the epoch anchor get the same Javanese
    year, month and day exactly when they lie the same whole number of days
    after the anchor. *)
Theorem same_date_iff_same_day (lo : Z -> Z) (t1 t2 : Z)
  (H1 : epochMs <= t1) (H2 : epochMs <= t2) :
  (year (toJavanese lo t1), month (toJavanese lo t1), day (toJavanese lo t1)) =
  (year (toJavanese lo t2), month (toJavanese lo t2), day (toJavanese lo t2))
  <-> elapsedDays t1 = elapsedDays t2.
Proof.
  split.
  - intros Eq. injection Eq as Y M D.
    destruct (toJavanese_resolved lo t1 H1) as [n1 [k1 [Ey1 [Em1 [_ [_ E1]]]]]].
    destruct (toJavanese_resolved lo t2 H2) as [n2 [k2 [Ey2 [Em2 [_ [_ E2]]]]]].
    assert (n1 = n2) by lia. assert (k1 = k2) by lia. subst n2 k2.
    rewrite E1, E2, Y, D. reflexivity.
  - intros E. destruct (ymd_toJavanese_elapsed lo lo t1 t2 E) as [Y [M [D _]]].
    rewrite Y, M, D. reflexivity.
Qed.


Lemma javaneseOrdinal_toJavanese_witness :
  epochMs <= 1704153600000 /\
  (let r := toJavanese utc 1704153600000 in
   1795 <= year r /\ 1 <= month r <= 12 /\
   javaneseOrdinal (year r) (month r) (day r) = elapsedDays 1704153600000).
Proof.
  split; [unfold epochMs; lia|].
  apply (javaneseOrdinal_toJavanese utc 1704153600000). unfold epochMs; lia.
Defined.

Lemma toJavanese_javaneseOrdinal_witness :
  1795 <= 1956 /\ 1 <= 8 <= 12 /\ 1 <= 21 <= getDaysInJavaneseMonth 1956 8 /\
  elapsedDays 1704153600000 = javaneseOrdinal 1956 8 21 /\
  (year (toJavanese utc 1704153600000) = 1956 /\
   month (toJavanese utc 1704153600000) = 8 /\
   day (toJavanese utc 1704153600000) = 21).
Proof.
  assert (Hd : 1 <= 21 <= getDaysInJavaneseMonth 1956 8)
    by (vm_compute; split; discriminate).
  assert (Ht : elapsedDays 1704153600000 = javaneseOrdinal 1956 8 21)
    by (vm_compute; reflexivity).
  split; [lia|]. split; [lia|]. split; [exact Hd|]. split; [exact Ht|].
  apply (toJavanese_javaneseOrdinal utc 1704153600000 1956 8 21);
    [lia | lia | exact Hd | exact Ht].
Defined.

Lemma generateJavaneseTimestamp_next_day_witness :
  epochMs <= 1704153600000 /\
  (let r := generateJavaneseTimestamp utc 1704153600000 in
   let r' := generateJavaneseTimestamp utc (1704153600000 + msPerDay) in
   (year r', month r', day r') = nextDate (year r) (month r) (day r)).
Proof.
  split; [unfold epochMs; lia|].
  apply (generateJavaneseTimestamp_next_day utc 1704153600000). unfold epochMs; lia.
Defined.

Lemma toJavanese_eight_year_period_witness :
  epochMs <= 1704153600000 /\
  (let r := toJavanese utc 1704153600000 in
   let r' := toJavanese utc (1704153600000 + 2835 * msPerDay) in
   year r' = year r + 8 /\ month r' = month r /\ day r' = day r).
Proof.
  split; [unfold epochMs; lia|].
  apply (toJavanese_eight_year_period utc 1704153600000). unfold epochMs; lia.
Defined.

Lemma wuku_first_five_post_epoch_witness :
  epochMs <= 1704153600000 /\
  (let r := toJavanese utc 1704153600000 in
   0 <= Cycle.day (wuku r) <= 4 /\
   In (Cycle.name (wuku r))
      (map Some ["Sinta"; "Landep"; "Wukir"; "Kurantil"; "Tolu"]%string)).
Proof.
  split; [unfold epochMs; lia|].
  apply (wuku_first_five_post_epoch utc 1704153600000). unfold epochMs; lia.
Defined.

Lemma year_nondecreasing_witness :
  epochMs - 1 <= 1704153600000 /\
  year (toJavanese utc (epochMs - 1)) <= year (toJavanese utc 1704153600000).
Proof.
  split; [unfold epochMs; lia|].
  apply (year_nondecreasing utc (epochMs - 1) 1704153600000). unfold epochMs; lia.
Defined.

Lemma same_date_iff_same_day_witness :
  epochMs <= 1704153600000 /\ epochMs <= 1704160800000 /\
  ((year (toJavanese utc 1704153600000), month (toJavanese utc 1704153600000),
    day (toJavanese utc 1704153600000)) =
   (year (toJavanese utc 1704160800000), month (toJavanese utc 1704160800000),
    day (toJavanese utc 1704160800000))
   <-> elapsedDays 1704153600000 = elapsedDays 1704160800000).
Proof.
  split; [unfold epochMs; lia|]. split; [unfold epochMs; lia|].
  apply (same_date_iff_same_day utc 1704153600000 1704160800000); unfold epochMs; lia.
Defined.
